(** * Redwood: code generation entry point, router link, API server options
      and the page destroy pipeline

    A shallow embedding of four pieces of the framework:

    - [Codegen]: [generate] and [run] of the type/schema generation
      entry point of the internal package;
    - [RouterLink]: the click handler of the router's [Link] component;
    - [ServerOptions]: [resolveOptions] of
      [packages/api-server/src/createServerHelpers.ts];
    - [Destroy]: the "destroy page" task pipeline, exercised by the CLI
      test-suite.

    JavaScript values are a small tagged union, console output and calls
    into the host (unlink, navigate, preventDefault) are recorded in
    explicit traces, and the file system is a finite map from paths to
    file contents. *)

From stdpp Require Import base option list strings gmap.
From Stdlib Require Import Ascii ZArith Lia.

Local Open Scope string_scope.
Local Open Scope list_scope.
Local Open Scope Z_scope.

(** A call returns a value or throws [new Error(msg)]. *)
Inductive Completion (A : Type) : Type :=
| Return (a : A)
| Throw (msg : string).
Arguments Return {A} a.
Arguments Throw {A} msg.

(** ** JavaScript values *)

Module JS.

(** The values the embedded functions inspect.  Numbers are kept to the
    integers: the code below only ever asks for the type tag and the
    truthiness of such a value. *)
Inductive value : Type :=
| VUndefined
| VNull
| VBoolean (b : bool)
| VNumber (n : Z)
| VString (s : string)
| VObject (ref : nat).

(** [typeof v] *)
Definition typeof (v : value) : string :=
  match v with
  | VUndefined => "undefined"
  | VNull => "object"
  | VBoolean _ => "boolean"
  | VNumber _ => "number"
  | VString _ => "string"
  | VObject _ => "object"
  end.

(** ToBoolean *)
Definition truthy (v : value) : bool :=
  match v with
  | VUndefined | VNull => false
  | VBoolean b => b
  | VNumber n => negb (n =? 0)
  | VString s => negb (String.eqb s EmptyString)
  | VObject _ => true
  end.

(** [a !== b] on the values above (objects compare by reference). *)
Definition strict_neq (a b : value) : bool :=
  match a, b with
  | VUndefined, VUndefined | VNull, VNull => false
  | VBoolean x, VBoolean y => negb (Bool.eqb x y)
  | VNumber x, VNumber y => negb (x =? y)
  | VString x, VString y => negb (String.eqb x y)
  | VObject x, VObject y => negb (Nat.eqb x y)
  | _, _ => true
  end.

(** [p] is a prefix of [s]: the rest of [s] after it. *)
Fixpoint strip_prefix (p s : string) : option string :=
  match p with
  | EmptyString => Some s
  | String a p' =>
      match s with
      | EmptyString => None
      | String b s' => if Ascii.eqb a b then strip_prefix p' s' else None
      end
  end.

(** [s.replace(pat, rep)] for a string pattern: the first occurrence of
    [pat] is replaced, the rest of [s] is kept.  ([rep] is always the
    empty string below, so the [$] patterns of the replacement play no
    part.) *)
Fixpoint replace (pat rep s : string) : string :=
  match strip_prefix pat s with
  | Some rest => rep +:+ rest
  | None =>
      match s with
      | EmptyString => EmptyString
      | String c s' => String c (replace pat rep s')
      end
  end.

(** [s.includes(pat)] *)
Fixpoint includes (pat s : string) : bool :=
  match strip_prefix pat s with
  | Some _ => true
  | None =>
      match s with
      | EmptyString => false
      | String _ s' => includes pat s'
      end
  end.

End JS.

(** ** The generation entry point ([generate], [run]) *)

Module Codegen.
Import JS.

(** One entry of an [errors] array: [{ message, error }]. *)
Record GenError : Type := { message : value; error : value }.

(** What [generateGraphQLSchema] resolves to. *)
Record SchemaResult : Type :=
  { schemaPath : value; schemaErrors : list GenError }.

(** What [generateTypeDefs] resolves to. *)
Record TypeDefsResult : Type :=
  { typeDefFiles : list value; typeDefsErrors : list GenError }.

(** What [generate] resolves to. *)
Record GenerateResult : Type :=
  { files : list value; errors : list GenError }.

(** A call of [console.log] or [console.error] with its arguments. *)
Inductive Output : Type :=
| Log (args : list value)
| Error (args : list value).

(** [process.exitCode ||= 1] *)
Definition exitCode_or_assign (c : option Z) : option Z :=
  match c with
  | None => Some 1
  | Some n => if n =? 0 then Some 1 else Some n
  end.

(** The status the process ends with: [process.exitCode], 0 when unset. *)
Definition exit_status (c : option Z) : Z := default 0 c.

(** The schema path as [generate] lists it: a non-empty string is
    listed, anything else is not. *)
Definition listed_schemaPath (v : value) : list value :=
  match v with
  | VString EmptyString => []
  | VString s => [VString s]
  | _ => []
  end.

Section WithGenerators.

(** The state the two generators work on (the project's files). *)
Context {Env : Type}.

(** [./graphqlSchema] and [./typeDefinitions] are imported; each
    resolves to a result record and may change the project. *)
Variable generateGraphQLSchema : Env -> SchemaResult * Env.
Variable generateTypeDefs : Env -> TypeDefsResult * Env.

(** [getPaths().base] *)
Variable base : string.

Definition generate (env : Env) : GenerateResult * Env :=
  let '(r1, env1) := generateGraphQLSchema env in
  let '(r2, env2) := generateTypeDefs env1 in
  let files0 :=
    if strict_neq (schemaPath r1) (VString EmptyString)
    then [schemaPath r1] else [] in
  let files1 :=
    filter (fun x => typeof x = "string") (files0 ++ typeDefFiles r2) in
  ({| files := files1;
      errors := schemaErrors r1 ++ typeDefsErrors r2 |}, env2).

(** The process as [run] sees it. *)
Record Process : Type :=
  { env : Env; console : list Output; exitCode : option Z }.

(** [console.log('-', f.replace(rwjsPaths.base + '/', ''))]; [files]
    holds strings only (see [generate_files_strings]), so the other
    branch is never taken. *)
Definition print_file (f : value) : list Output :=
  match f with
  | VString s =>
      [Log [VString "-"; VString (replace (base +:+ "/") EmptyString s)]]
  | _ => []
  end.

(** The body of [for (const { message, error } of errors)]. *)
Definition print_error (e : GenError) : list Output :=
  [Error [message e]; Log []; Error [error e]; Log []].

Definition run (p : Process) : Process :=
  let out0 := [Log [VString "Generating..."]; Log []] in
  let '(r, env') := generate (env p) in
  let out1 := out0 ++ flat_map print_file (files r) ++ [Log []] in
  match errors r with
  | [] =>
      {| env := env';
         console := console p ++ out1 ++ [Log [VString "... done."]; Log []];
         exitCode := exitCode p |}
  | _ :: _ =>
      {| env := env';
         console :=
           console p ++ out1
             ++ [Log [VString "... done with errors."]; Log []]
             ++ flat_map print_error (errors r);
         exitCode := exitCode_or_assign (exitCode p) |}
  end.

(** What [run] prints before its closing lines: the heading and one
    line per file. *)
Definition report_head (fs : list value) : list Output :=
  [Log [VString "Generating..."]; Log []]
    ++ flat_map print_file fs ++ [Log []].

End WithGenerators.

(** *** Sample generators

    A project whose schema and type definitions generate cleanly, and
    one whose schema fails to generate (its path is then the empty
    string); the generators of these samples leave no state behind. *)

Definition clean_schema (e : unit) : SchemaResult * unit :=
  ({| schemaPath := VString "/app/.redwood/schema.graphql";
      schemaErrors := [] |}, e).

Definition clean_typeDefs (e : unit) : TypeDefsResult * unit :=
  ({| typeDefFiles :=
        [VString "/app/.redwood/types/includes/web-routerRoutes.d.ts";
         VUndefined];
      typeDefsErrors := [] |}, e).

Definition schema_error : GenError :=
  {| message := VString "Schema loading failed."; error := VObject 0 |}.

Definition failing_schema (e : unit) : SchemaResult * unit :=
  ({| schemaPath := VString EmptyString; schemaErrors := [schema_error] |}, e).

Definition fresh_process : Process (Env := unit) :=
  {| env := tt; console := []; exitCode := None |}.

Definition process_with_exit_code (c : Z) : Process (Env := unit) :=
  {| env := tt; console := []; exitCode := Some c |}.

(** The number of [console.error] calls in an output. *)
Fixpoint stderr_calls (out : list Output) : nat :=
  match out with
  | [] => 0%nat
  | Error _ :: rest => S (stderr_calls rest)
  | Log _ :: rest => stderr_calls rest
  end.

End Codegen.


(** ** The router's [Link]: its [onClick] handler *)

Module RouterLink.
Import JS.

(** The fields of the mouse event the handler reads. *)
Record MouseEvent : Type :=
  { button : Z;
    altKey : bool;
    ctrlKey : bool;
    metaKey : bool;
    shiftKey : bool }.

(** What the handler does to the outside, in the order it does it:
    [event.preventDefault()], the call of the user's [onClick], and
    [navigate(to)] of [./history]. *)
Inductive Effect : Type :=
| PreventDefault
| CallOnClick
| Navigate (to : string).

(** The [onClick] prop is optional; a handler that is given returns a
    value (a [React.MouseEventHandler] is declared to return nothing, a
    handler written in JavaScript may return anything). *)
Definition Handler : Type := MouseEvent -> value.

(** The arrow function passed as [onClick] of the anchor. *)
Definition handleClick (to : string) (onClick : option Handler)
    (event : MouseEvent) : list Effect :=
  if negb (button event =? 0)
     || altKey event || ctrlKey event || metaKey event || shiftKey event
  then []
  else
    PreventDefault ::
      match onClick with
      | Some h =>
          let result := h event in
          CallOnClick ::
            (if negb (String.eqb (typeof result) "boolean") || truthy result
             then [Navigate to]
             else [])
      | None => [Navigate to]
      end.

(** A click the browser is left to handle: another button than the
    primary one, or a modifier key held. *)
Definition modified (event : MouseEvent) : Prop :=
  button event <> 0 \/ altKey event = true \/ ctrlKey event = true
  \/ metaKey event = true \/ shiftKey event = true.

(** Sample clicks: the primary button alone, and with the control key. *)
Definition plain_click : MouseEvent :=
  {| button := 0; altKey := false; ctrlKey := false; metaKey := false;
     shiftKey := false |}.

Definition ctrl_click : MouseEvent :=
  {| button := 0; altKey := false; ctrlKey := true; metaKey := false;
     shiftKey := false |}.

End RouterLink.

(** ** [resolveOptions] of the API server *)

Module ServerOptions.

(** The [values] of [parseArgs] for the three options declared with
    [type: 'string']: each is a string or [undefined]. *)
Definition ArgValue : Type := option string.

Record Values : Type :=
  { v_host : ArgValue; v_port : ArgValue; v_apiRootPath : ArgValue }.

(** [typeof v] and the truthiness of such a value. *)
Definition typeof (v : ArgValue) : string :=
  match v with Some _ => "string" | None => "undefined" end.

Definition truthy (v : ArgValue) : bool :=
  match v with Some s => negb (String.eqb s EmptyString) | None => false end.

Section WithHost.

(** [FastifyServerOptions['logger']] and the numbers of JavaScript. *)
Context {Logger Number : Type}.

(** [isNaN] and unary [+] on a string. *)
Variable isNaN : Number -> bool.
Variable ToNumber : string -> Number.

(** [coerceRootPath] of [@redwoodjs/fastify-web/dist/helpers]. *)
Variable coerceRootPath : string -> string.

(** [getAPIHost()] and [getAPIPort()] of [./cliHelpers]. *)
Variable getAPIHost : string.
Variable getAPIPort : Number.

(** [parseArgs] of [util], with the option table of [resolveOptions];
    [None] stands for a call without [args], which reads [process.argv].
    The parser throws on input it does not accept. *)
Variable parseArgs : option (list string) -> Completion Values.

(** [DEFAULT_CREATE_SERVER_OPTIONS.logger], which depends on the process
    environment. *)
Variable DEFAULT_logger : Logger.

Record FastifyServerOptions : Type :=
  { requestTimeout : option Z; fso_logger : option Logger }.

Record CreateServerOptions : Type :=
  { o_apiRootPath : option string;
    o_logger : option Logger;
    o_fastifyServerOptions : option FastifyServerOptions;
    o_parseArgs : option bool }.

Record ResolvedOptions : Type :=
  { apiRootPath : string;
    fastifyServerOptions : FastifyServerOptions;
    host : string;
    port : Number }.

(** [DEFAULT_CREATE_SERVER_OPTIONS] *)
Definition DEFAULT_apiRootPath : string := "/".
Definition DEFAULT_requestTimeout : Z := 15000.
Definition DEFAULT_parseArgs : bool := true.

(** The default value of the first parameter: [{}]. *)
Definition empty_options : CreateServerOptions :=
  {| o_apiRootPath := None; o_logger := None;
     o_fastifyServerOptions := None; o_parseArgs := None |}.

(** The block guarded by [if (options.parseArgs)]. *)
Definition apply_args (values : Values) (r : ResolvedOptions)
    : Completion ResolvedOptions :=
  if truthy (v_host values) && negb (String.eqb (typeof (v_host values)) "string")
  then Throw "`host` must be a string"
  else
    let host1 :=
      match v_host values with
      | Some h => if truthy (v_host values) then h else host r
      | None => host r
      end in
    let port_step : Completion Number :=
      match v_port values with
      | Some p =>
          if truthy (v_port values)
          then
            if isNaN (ToNumber p)
            then Throw "`port` must be an integer"
            else Return (ToNumber p)
          else Return (port r)
      | None => Return (port r)
      end in
    match port_step with
    | Throw msg => Throw msg
    | Return port1 =>
        if truthy (v_apiRootPath values)
           && negb (String.eqb (typeof (v_apiRootPath values)) "string")
        then Throw "`apiRootPath` must be a string"
        else
          let root1 :=
            match v_apiRootPath values with
            | Some a => if truthy (v_apiRootPath values) then a else apiRootPath r
            | None => apiRootPath r
            end in
          Return {| apiRootPath := root1;
                    fastifyServerOptions := fastifyServerOptions r;
                    host := host1;
                    port := port1 |}
    end.

Definition resolveOptions (options : CreateServerOptions)
    (args : option (list string)) : Completion ResolvedOptions :=
  (* options.logger ??= DEFAULT_CREATE_SERVER_OPTIONS.logger *)
  let logger := default DEFAULT_logger (o_logger options) in
  (* Set defaults. *)
  let fso0 :=
    default {| requestTimeout := Some DEFAULT_requestTimeout;
               fso_logger := Some logger |}
            (o_fastifyServerOptions options) in
  (* Merge fastifyServerOptions. *)
  let fso1 :=
    {| requestTimeout :=
         Some (default DEFAULT_requestTimeout (requestTimeout fso0));
       fso_logger := Some logger |} in
  let resolved0 :=
    {| apiRootPath := default DEFAULT_apiRootPath (o_apiRootPath options);
       fastifyServerOptions := fso1;
       host := getAPIHost;
       port := getAPIPort |} in
  let step :=
    match o_parseArgs options with
    | Some true =>
        match parseArgs args with
        | Throw msg => Throw msg
        | Return values => apply_args values resolved0
        end
    | _ => Return resolved0
    end in
  match step with
  | Throw msg => Throw msg
  | Return r =>
      Return {| apiRootPath := coerceRootPath (apiRootPath r);
                fastifyServerOptions := fastifyServerOptions r;
                host := host r;
                port := port r |}
  end.

End WithHost.

(** *** A sample host for [resolveOptions]

    Numbers are [option Z] ([None] is NaN), unary [+] reads the empty
    string as 0 and an unsigned decimal literal as its value, and the
    argument parser accepts [--host v], [--port v], [-p v] and
    [--apiRootPath v]. *)

Definition sample_isNaN (n : option Z) : bool :=
  match n with None => true | Some _ => false end.

Definition digit_value (c : Ascii.ascii) : option Z :=
  let n := Z.of_nat (Ascii.nat_of_ascii c) in
  if (48 <=? n) && (n <=? 57) then Some (n - 48) else None.

Fixpoint decimal (acc : Z) (s : string) : option Z :=
  match s with
  | EmptyString => Some acc
  | String c s' =>
      match digit_value c with
      | Some d => decimal (10 * acc + d) s'
      | None => None
      end
  end.

Definition sample_ToNumber (s : string) : option Z := decimal 0 s.

(** [coerceRootPath] as the fastify-web helper has it: a leading and a
    trailing slash are added where missing. *)
Definition ends_with_slash (s : string) : bool :=
  match String.get (String.length s - 1) s with
  | Some c => Ascii.eqb c "/"%char
  | None => false
  end.

Definition sample_coerceRootPath (path : string) : string :=
  let prefix :=
    match path with
    | String c _ => if Ascii.eqb c "/"%char then EmptyString else "/"
    | EmptyString => "/"
    end in
  let suffix := if ends_with_slash path then EmptyString else "/" in
  prefix +:+ path +:+ suffix.

Fixpoint sample_parse (args : list string) (acc : Values)
    : Completion Values :=
  match args with
  | [] => Return acc
  | opt :: v :: rest =>
      if String.eqb opt "--host" then
        sample_parse rest
          {| v_host := Some v; v_port := v_port acc;
             v_apiRootPath := v_apiRootPath acc |}
      else if String.eqb opt "--port" || String.eqb opt "-p" then
        sample_parse rest
          {| v_host := v_host acc; v_port := Some v;
             v_apiRootPath := v_apiRootPath acc |}
      else if String.eqb opt "--apiRootPath" then
        sample_parse rest
          {| v_host := v_host acc; v_port := v_port acc;
             v_apiRootPath := Some v |}
      else Throw "ERR_PARSE_ARGS_UNKNOWN_OPTION"
  | _ :: [] => Throw "ERR_PARSE_ARGS_INVALID_OPTION_VALUE"
  end.

Definition sample_parseArgs (args : option (list string)) : Completion Values :=
  sample_parse (default [] args)
    {| v_host := None; v_port := None; v_apiRootPath := None |}.

Definition sample_resolveOptions :=
  resolveOptions (Logger := unit) sample_isNaN sample_ToNumber
    sample_coerceRootPath "::" (Some 8911) sample_parseArgs tt.

(** Options that bring fastify options without a request timeout. *)
Definition bare_fastify_options : CreateServerOptions (Logger := unit) :=
  {| o_apiRootPath := None; o_logger := None;
     o_fastifyServerOptions :=
       Some {| requestTimeout := None; fso_logger := None |};
     o_parseArgs := None |}.

(** A port argument that makes [resolveOptions] throw: not empty, and
    not a number. *)
Definition bad_port {Number : Type} (isNaN : Number -> bool)
    (ToNumber : string -> Number) (values : Values) : Prop :=
  exists p, v_port values = Some p /\ p <> EmptyString
            /\ isNaN (ToNumber p) = true.

(** Options that turn argument parsing on and set nothing else. *)
Definition parse_enabled : CreateServerOptions (Logger := unit) :=
  {| o_apiRootPath := None; o_logger := None;
     o_fastifyServerOptions := None; o_parseArgs := Some true |}.

End ServerOptions.


(** ** The destroy pipeline of the CLI ("destroy page")

    The generator ([files]) and the destroy command ([tasks]) are driven
    by the CLI test-suite; their definitions here follow the design
    document of the pipeline: a resolver from a target to a file set, a
    task list builder, a sequential runner that collects failures, and a
    line-based editor of the route table. *)

Module Destroy.

(** *** Text helpers *)

Definition LF : ascii := "010"%char.
Definition newline : string := String LF EmptyString.
Definition dquote : string := String "034"%char EmptyString.

(** Modelled from the spec: the route table is "treated as semi-structured
    text", edited line by line.  [lines] is [text.split('\n')]: never
    empty, the empty text is one empty line. *)
Fixpoint lines (text : string) : list string :=
  match text with
  | EmptyString => [EmptyString]
  | String c rest =>
      if Ascii.eqb c LF then EmptyString :: lines rest
      else
        match lines rest with
        | l :: ls => String c l :: ls
        | [] => [String c EmptyString]
        end
  end.

(** Modelled from the spec: the lines are joined as they were split,
    [ls.join('\n')], which keeps "line-ending/joining conventions
    verbatim". *)
Fixpoint unlines (ls : list string) : string :=
  match ls with
  | [] => EmptyString
  | [l] => l
  | l :: ls' => l +:+ newline +:+ unlines ls'
  end.

(** Modelled from the spec: the editor "removes exactly that line": the
    list without its first element that satisfies [p]. *)
Fixpoint remove_first {A : Type} (p : A -> bool) (l : list A) : list A :=
  match l with
  | [] => []
  | x :: l' => if p x then l' else x :: remove_first p l'
  end.

Fixpoint all_chars (p : ascii -> bool) (s : string) : bool :=
  match s with
  | EmptyString => true
  | String c s' => p c && all_chars p s'
  end.

Definition is_letter (c : ascii) : bool :=
  let n := nat_of_ascii c in
  ((65 <=? n) && (n <=? 90) || (97 <=? n) && (n <=? 122))%nat.

Definition is_digit (c : ascii) : bool :=
  let n := nat_of_ascii c in ((48 <=? n) && (n <=? 57))%nat.

Definition ident_start (c : ascii) : bool :=
  is_letter c || Ascii.eqb c "_"%char || Ascii.eqb c "$"%char.

Definition ident_part (c : ascii) : bool := ident_start c || is_digit c.

(** *** Data model *)

(** Modelled from the spec: the Generator Target of the data model, "a
    logical entity name plus options (has stories, has tests, custom
    path)"; the generator's own record type is not part of the sources
    at hand. *)
Record Target : Type :=
  { name : string;
    includeStories : bool;
    includeTests : bool;
    customPath : option string }.

(** Modelled from the spec: the four members of a generated file set
    that the resolver lists, "(component, stories, test, route entry)". *)
Inductive FileKind : Type := Component | Stories | Test | RouteEntry.

(** Modelled from the spec: "fails if the name is empty or not a valid
    identifier"; the check of the generator is not part of the sources. *)
Definition valid_identifier (s : string) : bool :=
  match s with
  | EmptyString => false
  | String c rest => ident_start c && all_chars ident_part rest
  end.

(** Modelled from the spec: a task's run operation "may fail"; how a
    task ended. *)
Inductive Outcome : Type :=
| Done
| Failed (cause : string).

(** Modelled from the spec: "a renderer option controls whether progress
    is printed": interactive (the default) or silent. *)
Inductive Renderer : Type := Interactive | Silent.

(** Modelled from the spec: the shared resource is "the project's file
    system tree".  The project on disk and what the process did to the
    outside: the files (path to content), the calls of [unlink] in order
    (what the test-suite spies on), and the progress lines printed. *)
Record World : Type :=
  { fs : gmap string string;
    unlinked : list string;
    progress : list string }.

(** Modelled from the spec: a Task is "a named unit of work with a run
    operation that ... may fail"; tasks "are data (name + deferred
    operation), not yet executed". *)
Record Task : Type :=
  { title : string;
    run : World -> Outcome * World }.

(** Modelled from the spec: the builder's result, "an ordered list of
    tasks" with the renderer option, which the caller may set before
    running. *)
Record TaskList : Type :=
  { task_list : list Task;
    renderer : Renderer }.

Definition set_renderer (r : Renderer) (t : TaskList) : TaskList :=
  {| task_list := task_list t; renderer := r |}.

(** Modelled from the spec: an entry of the "final error list": which
    task failed, and the underlying cause. *)
Record TaskError : Type :=
  { failed_task : string; cause : string }.

(** *** File-system operations *)

(** Modelled from the spec: deleting one file through the file-system
    abstraction, [fs.unlinkSync(p)] in the test-suite: the call is
    recorded; a missing file fails ("file missing"). *)
Definition unlink (p : string) (w : World) : Outcome * World :=
  match fs w !! p with
  | Some _ =>
      (Done, {| fs := delete p (fs w);
                unlinked := unlinked w ++ [p];
                progress := progress w |})
  | None =>
      (Failed ("ENOENT: " +:+ p),
       {| fs := fs w; unlinked := unlinked w ++ [p]; progress := progress w |})
  end.

(** Modelled from the spec: task (1), "delete each generated file".  A
    failing unlink fails the task; what was deleted before stays deleted
    (no rollback). *)
Fixpoint delete_files (paths : list string) (w : World) : Outcome * World :=
  match paths with
  | [] => (Done, w)
  | p :: rest =>
      match unlink p w with
      | (Done, w') => delete_files rest w'
      | (Failed e, w') => (Failed e, w')
      end
  end.

(** Modelled from the spec: a file set maps a path "to file content (for
    creation)"; writing it into the project creates or overwrites each
    file. *)
Definition write_files (gen : gmap string string) (w : World) : World :=
  {| fs := gen ∪ fs w; unlinked := unlinked w; progress := progress w |}.

(** A line holds no line feed. *)
Definition no_LF (s : string) : bool :=
  all_chars (fun c => negb (Ascii.eqb c LF)) s.

Section WithLayout.

(** Modelled from the spec: the project-path resolver "returns fixed,
    well-known directories": the web-side source directory and the file
    holding the route table. *)
Variable web_src : string.
Variable routes_file : string.

(** The naming conventions of the generator, which the design document
    leaves open: the file of each kind for an entity name (relative to
    the web-side source directory), its generated content, the route
    name and the default route path derived from an entity name. *)
Variable file_name : FileKind -> string -> string.
Variable template : FileKind -> Target -> string.
Variable route_name : string -> string.
Variable default_path : string -> string.

(** *** Path/name resolver *)

(** Modelled from the spec: paths are "rooted at the project's web-side
    source directory". *)
Definition file_path (k : FileKind) (n : string) : string :=
  web_src +:+ "/" +:+ file_name k n.

(** Modelled from the spec: the members of the file set of a target:
    the component and the route entry always, stories and test with
    their flags ("About" with both is four files). *)
Definition kinds (t : Target) : list FileKind :=
  [Component]
    ++ (if includeStories t then [Stories] else [])
    ++ (if includeTests t then [Test] else [])
    ++ [RouteEntry].

(** Modelled from the spec: the Path/Name Resolver, "given a bare entity
    name and an options bag (enumerated flags: includeStories,
    includeTests, customPath), produce a canonical set of relative file
    paths (component, stories, test, route entry) rooted at the project's
    web-side source directory.  Pure function; no side effects; fails if
    the name is empty or not a valid identifier."  The file set is a
    "mapping from ... file path to file content", keys unique.  The
    generator module [generate/page/page] is not part of the sources. *)
Definition files (t : Target) : Completion (gmap string string) :=
  if valid_identifier (name t)
  then Return (list_to_map
                 (map (fun k => (file_path k (name t), template k t)) (kinds t)))
  else Throw ("invalid name: " +:+ name t).

(** Modelled from the spec: the keys of a file set, the paths to delete. *)
Definition paths_of (gen : gmap string string) : list string :=
  (map_to_list gen).*1.

(** *** Route table editor *)

(** Modelled from the spec: the path a target's route is declared with:
    the custom path when one is given, the default convention otherwise. *)
Definition target_path (t : Target) : string :=
  match customPath t with
  | Some p => p
  | None => default_path (name t)
  end.

(** Modelled from the spec: an attribute as it is written in a route
    entry of the test-suite's table: the key, an equals sign and the
    value between double quotes. *)
Definition attribute (key val : string) : string :=
  key +:+ "=" +:+ dquote +:+ val +:+ dquote.

(** Modelled from the spec: "a route entry is identified by its
    path/name attributes"; a line matches the target when it carries the
    target's path attribute or its name attribute. *)
Definition matches (t : Target) (line : string) : bool :=
  JS.includes (attribute "path" (target_path t)) line
  || JS.includes (attribute "name" (route_name (name t))) line.

(** Modelled from the spec: the Route Table Editor, which "locates a
    line in the route-table text matching the target's path or name
    attribute and removes exactly that line, preserving all other lines
    and line-ending/joining conventions verbatim", and does nothing when
    no line matches.  The editor used by the destroy command is not part
    of the sources. *)
Definition remove_route_line (t : Target) (text : string) : string :=
  unlines (remove_first (matches t) (lines text)).

(** Modelled from the spec: task (2), "rewrite the route table text to
    remove the matching route line"; a missing route file fails the
    task, a table without a matching line is not an error. *)
Definition edit_routes (t : Target) (w : World) : Outcome * World :=
  match fs w !! routes_file with
  | Some text =>
      (Done, {| fs := <[routes_file := remove_route_line t text]> (fs w);
                unlinked := unlinked w;
                progress := progress w |})
  | None => (Failed ("ENOENT: " +:+ routes_file), w)
  end.

(** *** Task list builder *)

(** Modelled from the spec: the Task List Builder, "given the resolved
    file set, returns an ordered list of tasks: (1) delete each generated
    file, (2) rewrite the route table text to remove the matching route
    line"; a bad entity name is "reported immediately, no tasks run".
    The command module [destroy/page/page] is not part of the sources. *)
Definition tasks (t : Target) : Completion TaskList :=
  match files t with
  | Throw msg => Throw msg
  | Return gen =>
      Return
        {| task_list :=
             [ {| title := "Destroying page files...";
                  run := delete_files (paths_of gen) |};
               {| title := "Cleaning up routes file...";
                  run := edit_routes t |} ];
           renderer := Interactive |}
  end.

(** *** Task runner *)

(** Modelled from the spec: the console renderer "prints per-task
    progress, silence-able for tests". *)
Definition report (r : Renderer) (line : string) (w : World) : World :=
  match r with
  | Silent => w
  | Interactive =>
      {| fs := fs w; unlinked := unlinked w;
         progress := progress w ++ [line] |}
  end.

(** Modelled from the spec: the Task Runner "executes tasks strictly in
    order"; a per-task failure is "collected, does not stop subsequent
    tasks, surfaced in a final error list", and nothing is rolled back. *)
Fixpoint run_tasks (r : Renderer) (ts : list Task) (w : World)
    : list TaskError * World :=
  match ts with
  | [] => ([], w)
  | t :: rest =>
      let '(outcome, w1) := run t (report r (title t) w) in
      let '(errs, w2) := run_tasks r rest w1 in
      (match outcome with
       | Done => errs
       | Failed e => {| failed_task := title t; cause := e |} :: errs
       end, w2)
  end.

(** Modelled from the spec: the destroy operation as a whole: resolve,
    build the task list, run it with the chosen renderer.  Invalid input
    runs nothing. *)
Definition destroy (r : Renderer) (t : Target) (w : World)
    : Completion (list TaskError) * World :=
  match tasks t with
  | Throw msg => (Throw msg, w)
  | Return tl =>
      let '(errs, w') := run_tasks r (task_list tl) w in
      (Return errs, w')
  end.

End WithLayout.

(** *** A sample project

    The layout and naming used by the examples below: pages live in
    [pages/<Name>Page/], the route of a page is named after the entity
    with a lower-case first letter, and its default path is that name
    after a slash. *)

Definition lower_first (s : string) : string :=
  match s with
  | EmptyString => EmptyString
  | String c rest =>
      let n := nat_of_ascii c in
      String (if ((65 <=? n) && (n <=? 90))%nat
              then ascii_of_nat (n + 32) else c) rest
  end.

Definition sample_file_name (k : FileKind) (n : string) : string :=
  "pages/" +:+ n +:+ "Page/" +:+ n +:+ "Page"
    +:+ match k with
        | Component => ".js"
        | Stories => ".stories.js"
        | Test => ".test.js"
        | RouteEntry => ".routes.js"
        end.

Definition sample_template (k : FileKind) (t : Target) : string := EmptyString.

Definition sample_default_path (n : string) : string := "/" +:+ lower_first n.

Definition sample_routes_file : string := "/app/web/src/Routes.js".

Definition sample_files : Target -> Completion (gmap string string) :=
  files "/app/web/src" sample_file_name sample_template.

Definition sample_tasks : Target -> Completion TaskList :=
  tasks "/app/web/src" sample_routes_file sample_file_name sample_template
    lower_first sample_default_path.

Definition sample_destroy :=
  destroy "/app/web/src" sample_routes_file sample_file_name sample_template
    lower_first sample_default_path.

Definition about : Target :=
  {| name := "About"; includeStories := false; includeTests := false;
     customPath := None |}.

Definition about_full : Target :=
  {| name := "About"; includeStories := true; includeTests := true;
     customPath := None |}.

Definition about_us : Target :=
  {| name := "About"; includeStories := false; includeTests := false;
     customPath := Some "/about-us" |}.

Definition route_about : string :=
  "  <Route path=" +:+ dquote +:+ "/about" +:+ dquote
    +:+ " page={AboutPage} name=" +:+ dquote +:+ "about" +:+ dquote +:+ " />".

Definition route_about_us : string :=
  "  <Route path=" +:+ dquote +:+ "/about-us" +:+ dquote
    +:+ " page={AboutPage} name=" +:+ dquote +:+ "aboutUs" +:+ dquote +:+ " />".

Definition route_home : string :=
  "  <Route path=" +:+ dquote +:+ "/" +:+ dquote
    +:+ " page={HomePage} name=" +:+ dquote +:+ "home" +:+ dquote +:+ " />".

Definition route_notfound : string := "  <Route notfound page={NotFoundPage} />".

(** The route table the test-suite starts from. *)
Definition routes_before : string :=
  unlines ["<Routes>"; route_about; route_home; route_notfound; "</Routes>"].

(** The route table the test-suite expects after the clean-up. *)
Definition routes_after : string :=
  unlines ["<Routes>"; route_home; route_notfound; "</Routes>"].

(** The task lists of the sample targets. *)
Definition no_tasks : TaskList := {| task_list := []; renderer := Silent |}.

Definition about_tasks : TaskList :=
  match sample_tasks about with Return tl => tl | Throw _ => no_tasks end.

Definition about_us_tasks : TaskList :=
  match sample_tasks about_us with Return tl => tl | Throw _ => no_tasks end.

(** The file set of the sample target with stories and tests. *)
Definition about_full_files : gmap string string :=
  match sample_files about_full with Return gen => gen | Throw _ => ∅ end.

(** A project that holds nothing but the given route table. *)
Definition project_with (routes : string) : World :=
  {| fs := {[ sample_routes_file := routes ]}; unlinked := []; progress := [] |}.

End Destroy.


(** ** The Apollo provider with suspense ([web/src/apollo/suspense.tsx])

    The data the two provider components compute before they hand over
    to Apollo: the list of Redwood's links, the GraphQL endpoint, and the
    option objects passed down.  An object is the finite map of its own
    enumerable properties; links, caches and configuration values are
    opaque values. *)

Module ApolloProvider.
Import JS.

(** An element of [RedwoodApolloLinks]: [{ name, link }]. *)
Record RedwoodApolloLink : Type := { name : string; link : value }.

(** [o.key] of an object: [undefined] when the property is absent. *)
Definition get (o : gmap string value) (key : string) : value :=
  default VUndefined (o !! key).

(** [x ?? {}] for an optional object. *)
Definition or_empty (o : option (gmap string value)) : gmap string value :=
  default ∅ o.

Section WithApollo.

(** The link constructors of [./links]. *)
Variable createTokenLink : value -> value.
Variable createAuthApolloLink : value -> value -> value.
Variable createUpdateDataLink : value.
Variable createHttpLink : value -> value -> value -> value.
Variable createFinalLink : value -> list RedwoodApolloLink -> value.

(** [new NextSSRInMemoryCache(cacheConfig).restore(state)], with the
    state [globalThis?.__REDWOOD__APOLLO_STATE ?? {}]. *)
Variable restoredCache : value -> value.

(** What the hooks return: [useFetchConfig()], [useAuth()] and
    [useContext(ServerAuthContext)] (an object, or nothing). *)
Variable uri : value.
Variable headers : value.
Variable getToken : value.
Variable authProviderType : value.
Variable serverAuthState : option (gmap string value).

(** The environment: [process.env.NODE_ENV === 'development'], whether
    [window] is defined, and [RWJS_ENV.RWJS_EXP_SSR_GRAPHQL_ENDPOINT]. *)
Variable isDev : bool.
Variable has_window : bool.
Variable RWJS_EXP_SSR_GRAPHQL_ENDPOINT : value.

Definition getGraphqlUrl : value :=
  if negb has_window then RWJS_EXP_SSR_GRAPHQL_ENDPOINT else uri.

(** [serverAuthState?.cookieHeader] *)
Definition cookieHeader : value :=
  match serverAuthState with
  | Some state => get state "cookieHeader"
  | None => VUndefined
  end.

(** The array literal of [redwoodApolloLinks] before [.filter]: the
    third element is [false] outside development ([None] here). *)
Definition link_candidates (httpLinkConfig : value)
    : list (option RedwoodApolloLink) :=
  [ Some {| name := "withToken"; link := createTokenLink getToken |};
    Some {| name := "authMiddleware";
            link := createAuthApolloLink authProviderType headers |};
    (if isDev
     then Some {| name := "enhanceErrorLink"; link := createUpdateDataLink |}
     else None);
    Some {| name := "httpLink";
            link := createHttpLink getGraphqlUrl httpLinkConfig cookieHeader |} ].

(** [.filter((link) => !!link)]: the objects stay, [false] goes. *)
Definition redwoodApolloLinks (httpLinkConfig : value)
    : list RedwoodApolloLink :=
  omap id (link_candidates httpLinkConfig).

(** The options [makeClient] passes to [new NextSSRApolloClient]:
    [{ link: createFinalLink(...), ...otherConfig }], where
    [{ httpLinkConfig, link: userPassedLink, ...otherConfig } = config ?? {}]. *)
Definition makeClient (config : option (gmap string value))
    : gmap string value :=
  let c := or_empty config in
  let httpLinkConfig := get c "httpLinkConfig" in
  let userPassedLink := get c "link" in
  let otherConfig := delete "httpLinkConfig" (delete "link" c) in
  otherConfig
    ∪ {[ "link" := createFinalLink userPassedLink
                     (redwoodApolloLinks httpLinkConfig) ]}.

(** The [config] prop [RedwoodApolloProvider] passes down:
    [{ cache, ...config }], where
    [{ cacheConfig, ...config } = graphQLClientConfig ?? {}]. *)
Definition provider_config (graphQLClientConfig : option (gmap string value))
    : gmap string value :=
  let g := or_empty graphQLClientConfig in
  let cacheConfig := get g "cacheConfig" in
  let config := delete "cacheConfig" g in
  config ∪ {[ "cache" := restoredCache cacheConfig ]}.

(** The client options that rendering [RedwoodApolloProvider] leads to. *)
Definition provider_client (graphQLClientConfig : option (gmap string value))
    : gmap string value :=
  makeClient (Some (provider_config graphQLClientConfig)).

End WithApollo.

(** A sample rendering: links and caches are numbered objects. *)
Definition sample_links (isDev : bool) : list RedwoodApolloLink :=
  redwoodApolloLinks (fun _ => VObject 1) (fun _ _ => VObject 2) (VObject 3)
    (fun _ _ _ => VObject 4) (VString "/graphql") VUndefined VUndefined
    VUndefined None isDev true VUndefined VUndefined.

Definition sample_client (g : option (gmap string value)) : gmap string value :=
  provider_client (fun _ => VObject 1) (fun _ _ => VObject 2) (VObject 3)
    (fun _ _ _ => VObject 4) (fun _ _ => VObject 5) (fun _ => VObject 6)
    (VString "/graphql") VUndefined VUndefined VUndefined None false true
    VUndefined g.

End ApolloProvider.

(** * Properties *)

(** ** The generation entry point *)

Module CodegenProofs.
Import JS Codegen.

Lemma typeof_string_inv (v : value) :
  typeof v = "string" <-> exists s, v = VString s.
Proof.
  split.
  - destruct v; simpl; intros H; try discriminate H. eauto.
  - intros [s ->]. reflexivity.
Qed.

Lemma strict_neq_empty (v : value) :
  strict_neq v (VString EmptyString) = false <-> v = VString EmptyString.
Proof.
  destruct v as [| | b | n | s | r]; simpl; split; try discriminate; try reflexivity.
  - intros H. apply negb_false_iff, String.eqb_eq in H. by subst.
  - intros [= ->]. reflexivity.
Qed.

Lemma exit_status_or_assign (c : option Z) :
  exit_status (exitCode_or_assign c) <> 0.
Proof.
  destruct c as [n|]; simpl; [|lia].
  destruct (n =? 0) eqn:E; simpl; [lia|]. by apply Z.eqb_neq.
Qed.

Section WithGenerators.

Context {Env : Type}.
Variable generateGraphQLSchema : Env -> SchemaResult * Env.
Variable generateTypeDefs : Env -> TypeDefsResult * Env.
Variable base : string.

Abbreviation generate := (generate generateGraphQLSchema generateTypeDefs).
Abbreviation run := (run generateGraphQLSchema generateTypeDefs base).
Abbreviation report_head := (report_head base).

(** C8.  [generate] returns string entries only: the schema path is
    listed when it is a non-empty string (the empty path is left out),
    the entries of [typeDefFiles] that are not strings are dropped and
    the others kept in order, and [errors] is the schema generation's
    errors followed by the type definitions' errors. *)
Theorem generate_files_and_errors (env : Env) :
  let r1 := (generateGraphQLSchema env).1 in
  let r2 := (generateTypeDefs (generateGraphQLSchema env).2).1 in
  let r := (generate env).1 in
  Forall (fun v => typeof v = "string") (files r)
  /\ files r
     = listed_schemaPath (schemaPath r1)
         ++ filter (fun v => typeof v = "string") (typeDefFiles r2)
  /\ errors r = schemaErrors r1 ++ typeDefsErrors r2.
Proof.
  unfold Codegen.generate.
  destruct (generateGraphQLSchema env) as [r1 env1]; simpl.
  destruct (generateTypeDefs env1) as [r2 env2]; simpl.
  split; [|split]; [| |reflexivity].
  - apply Forall_forall. intros v Hv. by apply list_elem_of_filter in Hv as [? _].
  - rewrite filter_app. f_equal.
    destruct (schemaPath r1) as [| | b | n | s | o]; try reflexivity.
    destruct s; reflexivity.
Qed.


End WithGenerators.



End CodegenProofs.

(** ** The router's [Link] *)

Module RouterLinkProofs.
Import JS RouterLink.

Lemma modified_test (event : MouseEvent) :
  negb (button event =? 0)
  || altKey event || ctrlKey event || metaKey event || shiftKey event = true
  <-> modified event.
Proof.
  unfold modified.
  rewrite !orb_true_iff, negb_true_iff, Z.eqb_neq. tauto.
Qed.

Lemma modified_test_false (event : MouseEvent) :
  ~ modified event ->
  negb (button event =? 0)
  || altKey event || ctrlKey event || metaKey event || shiftKey event = false.
Proof.
  intros H. apply not_true_is_false. by rewrite modified_test.
Qed.

(** The test on the handler's result fails for the boolean [false] and
    for nothing else. *)
Lemma navigates_after (result : value) :
  negb (String.eqb (typeof result) "boolean") || truthy result = false
  <-> result = VBoolean false.
Proof.
  destruct result as [| | [|] | n | s | r]; simpl; split;
    try discriminate; try reflexivity.
Qed.

(** C10.  A click with another button than the primary one or with a
    modifier key held does nothing: neither [preventDefault] nor
    [navigate] is called.  Any other click prevents the default first;
    without an [onClick] prop it then navigates to [to]; with one, the
    handler is called, and [navigate(to)] follows unless the handler
    returned the boolean [false]. *)
Theorem link_click (to : string) (onClick : option Handler) (event : MouseEvent) :
  (modified event -> handleClick to onClick event = [])
  /\ (~ modified event -> onClick = None ->
      handleClick to onClick event = [PreventDefault; Navigate to])
  /\ (forall h, ~ modified event -> onClick = Some h ->
      h event = VBoolean false ->
      handleClick to onClick event = [PreventDefault; CallOnClick])
  /\ (forall h, ~ modified event -> onClick = Some h ->
      h event <> VBoolean false ->
      handleClick to onClick event = [PreventDefault; CallOnClick; Navigate to]).
Proof.
  unfold handleClick. repeat split.
  - intros H. apply (proj2 (modified_test event)) in H. by rewrite H.
  - intros H ->. by rewrite (modified_test_false _ H).
  - intros h H -> Hr. rewrite (modified_test_false _ H).
    apply navigates_after in Hr. by rewrite Hr.
  - intros h H -> Hr. rewrite (modified_test_false _ H).
    destruct (negb (String.eqb (typeof (h event)) "boolean") || truthy (h event))
      eqn:E; [done|].
    apply navigates_after in E. contradiction.
Qed.

(** C10, witness: a plain click on a link whose handler returns [false]
    prevents the default and does not navigate; a control-click is left
    to the browser. *)
Lemma link_click_witness :
  ~ modified plain_click
  /\ handleClick "/about" (Some (fun _ => VBoolean false)) plain_click
     = [PreventDefault; CallOnClick]
  /\ modified ctrl_click
  /\ handleClick "/about" None ctrl_click = [].
Proof.
  assert (Hp : ~ modified plain_click).
  { unfold modified; simpl. intros [H|[H|[H|[H|H]]]]; [by apply H | done..]. }
  assert (Hc : modified ctrl_click).
  { unfold modified; simpl. right; right; left. reflexivity. }
  split; [exact Hp|]. split.
  - exact (proj1 (proj2 (proj2
      (link_click "/about" (Some (fun _ => VBoolean false)) plain_click)))
      (fun _ => VBoolean false) Hp eq_refl eq_refl).
  - split; [exact Hc|].
    exact (proj1 (link_click "/about" None ctrl_click) Hc).
Defined.

End RouterLinkProofs.

(** ** [resolveOptions] *)

Module ServerOptionsProofs.
Import ServerOptions.

(** The values of [parseArgs] are strings or [undefined], so the two
    [typeof] guards never fire. *)
Lemma typeof_guard (v : ArgValue) :
  truthy v && negb (String.eqb (typeof v) "string") = false.
Proof. destruct v as [s|]; simpl; [apply andb_false_r | reflexivity]. Qed.

Lemma truthy_Some (s : string) : truthy (Some s) = true <-> s <> EmptyString.
Proof.
  simpl. rewrite negb_true_iff. split.
  - intros H ->. discriminate H.
  - intros H. destruct (String.eqb_spec s EmptyString); [contradiction | reflexivity].
Qed.

Section WithHost.

Context {Logger Number : Type}.
Variable isNaN : Number -> bool.
Variable ToNumber : string -> Number.
Variable coerceRootPath : string -> string.
Variable getAPIHost : string.
Variable getAPIPort : Number.
Variable parseArgs : option (list string) -> Completion Values.
Variable DEFAULT_logger : Logger.

Abbreviation apply_args := (apply_args (Logger := Logger) isNaN ToNumber).
Abbreviation resolveOptions :=
  (resolveOptions isNaN ToNumber coerceRootPath getAPIHost getAPIPort
     parseArgs DEFAULT_logger).

(** The argument block throws only for a truthy port that is not a
    number. *)
Lemma apply_args_throw (values : Values) (r : ResolvedOptions) (p : string) :
  v_port values = Some p -> p <> EmptyString -> isNaN (ToNumber p) = true ->
  apply_args values r = Throw "`port` must be an integer".
Proof.
  intros Hp Hne Hnan. unfold ServerOptions.apply_args.
  rewrite typeof_guard, Hp, (proj2 (truthy_Some p) Hne), Hnan. reflexivity.
Qed.

(** Otherwise it returns, each field replaced by its argument when that
    is truthy. *)
Lemma apply_args_return (values : Values) (r : ResolvedOptions) :
  (forall p, v_port values = Some p -> p <> EmptyString -> isNaN (ToNumber p) = false) ->
  apply_args values r
  = Return
      {| apiRootPath :=
           match v_apiRootPath values with
           | Some a => if truthy (Some a) then a else apiRootPath r
           | None => apiRootPath r
           end;
         fastifyServerOptions := fastifyServerOptions r;
         host :=
           match v_host values with
           | Some h => if truthy (Some h) then h else host r
           | None => host r
           end;
         port :=
           match v_port values with
           | Some p => if truthy (Some p) then ToNumber p else port r
           | None => port r
           end |}.
Proof.
  intros Hport. unfold ServerOptions.apply_args.
  rewrite !typeof_guard.
  destruct (v_port values) as [p|] eqn:Ep.
  - destruct (truthy (Some p)) eqn:Et.
    + rewrite (Hport p eq_refl (proj1 (truthy_Some p) Et)).
      destruct (v_host values), (v_apiRootPath values); reflexivity.
    + destruct (v_host values), (v_apiRootPath values); reflexivity.
  - destruct (v_host values), (v_apiRootPath values); reflexivity.
Qed.

(** C9 (as the code has it).  With argument parsing enabled and
    arguments the parser accepts: a non-empty [--port] value whose
    numeric coercion is NaN makes [resolveOptions] throw "`port` must be
    an integer"; a non-empty value that coerces to a number becomes the
    resolved port; an empty value is ignored like an absent one and the
    port of [getAPIPort] is kept; and when no non-empty port, host or
    apiRootPath argument is given, host and port are those of
    [getAPIHost] and [getAPIPort] and the root path is the coerced
    [options.apiRootPath], "/" by default. *)
Theorem resolveOptions_port_and_defaults
    (options : CreateServerOptions) (args : option (list string))
    (values : Values) :
  o_parseArgs options = Some true ->
  parseArgs args = Return values ->
  (forall p, v_port values = Some p -> p <> EmptyString -> isNaN (ToNumber p) = true ->
     resolveOptions options args = Throw "`port` must be an integer")
  /\ (forall p, v_port values = Some p -> p <> EmptyString -> isNaN (ToNumber p) = false ->
     exists r, resolveOptions options args = Return r /\ port r = ToNumber p)
  /\ (truthy (v_port values) = false ->
     exists r, resolveOptions options args = Return r /\ port r = getAPIPort)
  /\ (truthy (v_host values) = false -> truthy (v_port values) = false ->
      truthy (v_apiRootPath values) = false ->
     exists r, resolveOptions options args = Return r
       /\ host r = getAPIHost /\ port r = getAPIPort
       /\ apiRootPath r
          = coerceRootPath (default DEFAULT_apiRootPath (o_apiRootPath options))).
Proof.
  intros Hparse Hvalues. unfold ServerOptions.resolveOptions.
  rewrite Hparse, Hvalues. repeat split.
  - intros p Hp Hne Hnan. by rewrite (apply_args_throw _ _ p Hp Hne Hnan).
  - intros p Hp Hne Hnum. rewrite apply_args_return.
    + eexists; split; [reflexivity|]. cbn [port host apiRootPath].
      rewrite Hp, (proj2 (truthy_Some p) Hne). reflexivity.
    + intros q Hq _. congruence.
  - intros Hport. rewrite apply_args_return.
    + eexists; split; [reflexivity|]. cbn [port host apiRootPath].
      destruct (v_port values) as [p|]; [|reflexivity]. by rewrite Hport.
    + intros q Hq Hne. rewrite Hq in Hport.
      apply truthy_Some in Hne. congruence.
  - intros Hhost Hport Hroot. rewrite apply_args_return.
    + eexists; split; [reflexivity|]. cbn [port host apiRootPath].
      destruct (v_host values) as [h|]; [rewrite Hhost|];
        (destruct (v_port values) as [p|]; [rewrite Hport|]);
        (destruct (v_apiRootPath values) as [a|]; [rewrite Hroot|]);
        done.
    + intros q Hq Hne. rewrite Hq in Hport.
      apply truthy_Some in Hne. congruence.
Qed.

End WithHost.

(** C9, witness: [--port 8912] with the sample host resolves to port
    8912. *)
Lemma resolveOptions_port_and_defaults_witness :
  o_parseArgs parse_enabled = Some true
  /\ sample_parseArgs (Some ["--port"; "8912"])
     = Return {| v_host := None; v_port := Some "8912"; v_apiRootPath := None |}
  /\ exists r,
       sample_resolveOptions parse_enabled (Some ["--port"; "8912"]) = Return r
       /\ port r = Some 8912.
Proof.
  split; [reflexivity|]. split; [reflexivity|].
  exact (proj1 (proj2
    (resolveOptions_port_and_defaults sample_isNaN sample_ToNumber
       sample_coerceRootPath "::" (Some 8911) sample_parseArgs tt
       parse_enabled (Some ["--port"; "8912"])
       {| v_host := None; v_port := Some "8912"; v_apiRootPath := None |}
       eq_refl eq_refl))
    "8912" eq_refl ltac:(discriminate) eq_refl).
Defined.

(** C9, the claim as stated fails: an empty [--port] value is supplied
    and coerces to the number 0, yet [resolveOptions] neither throws nor
    takes 0 as the port: it keeps the port of [getAPIPort]. *)
Lemma resolveOptions_empty_port_counterexample :
  sample_parseArgs (Some ["--port"; EmptyString])
  = Return {| v_host := None; v_port := Some EmptyString; v_apiRootPath := None |}
  /\ sample_ToNumber EmptyString = Some 0
  /\ sample_isNaN (sample_ToNumber EmptyString) = false
  /\ exists r,
       sample_resolveOptions parse_enabled (Some ["--port"; EmptyString]) = Return r
       /\ port r = Some 8911
       /\ port r <> sample_ToNumber EmptyString.
Proof.
  repeat split.
  eexists. split; [reflexivity|]. split; [reflexivity|]. discriminate.
Qed.

End ServerOptionsProofs.

(** ** The destroy pipeline *)

Module DestroyProofs.
Import Destroy.

(** *** Lines of a text *)

Lemma lines_not_nil (text : string) : lines text <> [].
Proof.
  destruct text as [|c rest]; simpl; [discriminate|].
  destruct (Ascii.eqb c LF); [discriminate|].
  destruct (lines rest); discriminate.
Qed.

Lemma unlines_cons_char (c : ascii) (l : string) (ls : list string) :
  unlines (String c l :: ls) = String c (unlines (l :: ls)).
Proof. destruct ls; reflexivity. Qed.

(** Joining the lines of a text gives the text back, whatever its line
    endings. *)
Lemma unlines_lines (text : string) : unlines (lines text) = text.
Proof.
  induction text as [|c rest IH]; [reflexivity|]. simpl.
  destruct (Ascii.eqb_spec c LF) as [->|Hc].
  - pose proof (lines_not_nil rest) as Hne.
    destruct (lines rest) as [|l ls]; [contradiction|].
    change (unlines (EmptyString :: l :: ls))
      with (String LF (unlines (l :: ls))).
    by rewrite IH.
  - pose proof (lines_not_nil rest) as Hne.
    destruct (lines rest) as [|l ls]; [contradiction|].
    by rewrite unlines_cons_char, IH.
Qed.

Lemma lines_no_LF (text : string) : Forall (fun l => no_LF l = true) (lines text).
Proof.
  induction text as [|c rest IH]; simpl.
  - by repeat constructor.
  - destruct (Ascii.eqb c LF) eqn:Ec.
    + by constructor.
    + destruct (lines rest) as [|l ls].
      * repeat constructor. unfold no_LF; simpl. by rewrite Ec.
      * inversion IH as [|? ? Hl Hls]; subst. constructor; [|done].
        unfold no_LF in *; simpl. by rewrite Ec.
Qed.

Lemma lines_single (l : string) : no_LF l = true -> lines l = [l].
Proof.
  induction l as [|c l IH]; [reflexivity|].
  unfold no_LF; simpl. intros [Hc Hl]%andb_true_iff.
  apply negb_true_iff in Hc. rewrite Hc, (IH Hl). reflexivity.
Qed.

Lemma lines_append_newline (l rest : string) :
  no_LF l = true -> lines (l +:+ newline +:+ rest) = l :: lines rest.
Proof.
  induction l as [|c l IH]; [reflexivity|].
  unfold no_LF; simpl. intros [Hc Hl]%andb_true_iff.
  apply negb_true_iff in Hc. rewrite Hc.
  change (all_chars (fun c => negb (Ascii.eqb c LF)) l) with (no_LF l) in Hl.
  by rewrite (IH Hl).
Qed.

(** Splitting a joined list of lines gives the lines back, unless there
    is none. *)
Lemma lines_unlines (ls : list string) :
  ls <> [] -> Forall (fun l => no_LF l = true) ls -> lines (unlines ls) = ls.
Proof.
  induction ls as [|l ls IH]; [done|]. intros _ Hall.
  inversion Hall as [|? ? Hl Hls]; subst.
  destruct ls as [|l' ls'].
  - by apply lines_single.
  - change (unlines (l :: l' :: ls'))
      with (l +:+ newline +:+ unlines (l' :: ls')).
    rewrite (lines_append_newline _ _ Hl). f_equal. by apply IH.
Qed.

(** *** Removing the first match *)

Section RemoveFirst.

Context {A : Type}.
Variable p : A -> bool.

Lemma remove_first_none (l : list A) :
  Forall (fun y => p y = false) l -> remove_first p l = l.
Proof.
  induction 1 as [|y l Hy _ IH]; simpl; [done|]. by rewrite Hy, IH.
Qed.

Lemma remove_first_split (l1 l2 : list A) (x : A) :
  Forall (fun y => p y = false) l1 -> p x = true ->
  remove_first p (l1 ++ x :: l2) = l1 ++ l2.
Proof.
  intros H1 Hx. induction H1 as [|y l Hy _ IH]; simpl.
  - by rewrite Hx.
  - by rewrite Hy, IH.
Qed.

Lemma filter_false_all (l : list A) :
  Forall (fun y => p y = false) l -> filter (fun y => p y = false) l = l.
Proof.
  induction 1 as [|y l Hy _ IH]; [done|].
  by rewrite filter_cons_True, IH.
Qed.

Lemma filter_false_split (l1 l2 : list A) (x : A) :
  Forall (fun y => p y = false) (l1 ++ l2) -> p x = true ->
  filter (fun y => p y = false) (l1 ++ x :: l2) = l1 ++ l2.
Proof.
  intros [H1 H2]%Forall_app Hx.
  rewrite filter_app, filter_cons_False by congruence.
  by rewrite !filter_false_all.
Qed.

End RemoveFirst.

Lemma remove_first_ext {A : Type} (p q : A -> bool) (l : list A) :
  (forall y, p y = q y) -> remove_first p l = remove_first q l.
Proof.
  intros H. induction l as [|y l IH]; simpl; [done|]. by rewrite H, IH.
Qed.

(** *** Deleting files *)

Lemma unlink_present (p : string) (w : World) :
  is_Some (fs w !! p) ->
  unlink p w
  = (Done, {| fs := delete p (fs w);
              unlinked := unlinked w ++ [p];
              progress := progress w |}).
Proof. intros [c Hc]. unfold unlink. by rewrite Hc. Qed.

(** Deleting distinct files that all exist succeeds; the files are
    unlinked in order and nothing else changes. *)
Lemma delete_files_present (paths : list string) :
  forall w : World,
    NoDup paths ->
    Forall (fun p => is_Some (fs w !! p)) paths ->
    exists w',
      delete_files paths w = (Done, w')
      /\ unlinked w' = unlinked w ++ paths
      /\ progress w' = progress w
      /\ forall q, fs w' !! q = if decide (q ∈ paths) then None else fs w !! q.
Proof.
  induction paths as [|p rest IH]; intros w Hnd Hall.
  - exists w. simpl. split; [done|]. split; [by rewrite app_nil_r|].
    split; [done|]. intros q.
    destruct (decide (q ∈ [])) as [Hq|_]; [by apply elem_of_nil in Hq | done].
  - apply NoDup_cons in Hnd as [Hp Hnd].
    apply Forall_cons in Hall as [Hpw Hall].
    simpl. rewrite (unlink_present p w Hpw).
    destruct (IH {| fs := delete p (fs w);
                    unlinked := unlinked w ++ [p];
                    progress := progress w |} Hnd)
      as (w' & Hrun & Hunl & Hprog & Hfs).
    { simpl. apply Forall_forall. intros q Hq.
      rewrite lookup_delete_ne by (intros ->; contradiction).
      by apply (proj1 (Forall_forall _ _) Hall). }
    exists w'. split; [done|]. simpl in *.
    split; [by rewrite Hunl, <- app_assoc|]. split; [done|].
    intros q. rewrite Hfs.
    destruct (decide (q ∈ rest)) as [Hq|Hq].
    + rewrite decide_True; [done | by right].
    + destruct (decide (q = p)) as [->|Hne].
      * rewrite lookup_delete_eq, decide_True; [done | by left].
      * rewrite lookup_delete_ne by done.
        rewrite decide_False; [done|].
        intros [->|H]%elem_of_cons; contradiction.
Qed.

Lemma elem_of_paths_of (gen : gmap string string) (q : string) :
  q ∈ paths_of gen <-> is_Some (gen !! q).
Proof.
  unfold paths_of. rewrite list_elem_of_fmap. split.
  - intros ([k c] & -> & Hkc). apply elem_of_map_to_list in Hkc. by exists c.
  - intros [c Hc]. exists (q, c). split; [done|]. by apply elem_of_map_to_list.
Qed.

Lemma length_paths_of (gen : gmap string string) :
  length (paths_of gen) = size gen.
Proof. unfold paths_of. by rewrite length_fmap, length_map_to_list. Qed.

(** Deleting a file set whose files all exist leaves the project
    without them: every path is unlinked once, in the order of the set. *)
Lemma delete_files_generated (gen : gmap string string) (w : World) :
  (forall q, is_Some (gen !! q) -> is_Some (fs w !! q)) ->
  delete_files (paths_of gen) w
  = (Done, {| fs := fs w ∖ gen;
              unlinked := unlinked w ++ paths_of gen;
              progress := progress w |}).
Proof.
  intros Hex.
  destruct (delete_files_present (paths_of gen) w) as (w' & -> & Hunl & Hprog & Hfs).
  - apply NoDup_fst_map_to_list.
  - apply Forall_forall. intros q Hq. by apply Hex, elem_of_paths_of.
  - f_equal. destruct w' as [fs' unl' prog']. simpl in *. subst. f_equal.
    apply map_eq. intros q. rewrite Hfs, lookup_difference.
    destruct (decide (q ∈ paths_of gen)) as [Hq|Hq].
    + apply elem_of_paths_of in Hq as [c ->]. done.
    + destruct (gen !! q) as [c|] eqn:Eq; [|done].
      exfalso. apply Hq, elem_of_paths_of. by exists c.
Qed.

(** *** The pipeline *)

Lemma fs_report (r : Renderer) (line : string) (w : World) :
  fs (report r line w) = fs w.
Proof. by destruct r. Qed.

Lemma unlinked_report (r : Renderer) (line : string) (w : World) :
  unlinked (report r line w) = unlinked w.
Proof. by destruct r. Qed.

Section WithLayout.

Variable web_src : string.
Variable routes_file : string.
Variable file_name : FileKind -> string -> string.
Variable template : FileKind -> Target -> string.
Variable route_name : string -> string.
Variable default_path : string -> string.

Abbreviation files := (files web_src file_name template).
Abbreviation matches := (matches route_name default_path).
Abbreviation remove_route_line := (remove_route_line route_name default_path).
Abbreviation edit_routes := (edit_routes routes_file route_name default_path).
Abbreviation tasks :=
  (tasks web_src routes_file file_name template route_name default_path).
Abbreviation destroy :=
  (destroy web_src routes_file file_name template route_name default_path).

Lemma tasks_of_files (t : Target) (gen : gmap string string) :
  files t = Return gen ->
  tasks t
  = Return
      {| task_list :=
           [ {| title := "Destroying page files...";
                run := delete_files (paths_of gen) |};
             {| title := "Cleaning up routes file...";
                run := edit_routes t |} ];
         renderer := Interactive |}.
Proof. intros H. unfold Destroy.tasks. by rewrite H. Qed.

Lemma tasks_valid (t : Target) (tl : TaskList) :
  tasks t = Return tl -> exists gen, files t = Return gen.
Proof.
  unfold Destroy.tasks. destruct (files t) as [gen|msg]; [eauto | discriminate].
Qed.

Lemma files_valid (t : Target) :
  valid_identifier (name t) = true -> exists gen, files t = Return gen.
Proof. intros H. unfold Destroy.files. rewrite H. eauto. Qed.



(** C2.  Destroying a target on a project into which the file set of
    that same target was generated unlinks exactly the generated files,
    each once and as many as were generated; the files left are those of
    the project that are not generated ones, with their contents (the
    route table apart, which the second task rewrites).  A target whose
    name is invalid generates nothing and destroys nothing. *)
Theorem destroy_removes_generated (r : Renderer) (t : Target) (w0 : World) :
  match files t with
  | Return gen =>
      exists errs w',
        destroy r t (write_files gen w0) = (Return errs, w')
        /\ unlinked w' = unlinked w0 ++ paths_of gen
        /\ NoDup (paths_of gen)
        /\ (forall q, q ∈ paths_of gen <-> is_Some (gen !! q))
        /\ length (paths_of gen) = size gen
        /\ dom (fs w') = dom (fs (write_files gen w0)) ∖ dom gen
        /\ (forall q, gen !! q = None -> q <> routes_file ->
              fs w' !! q = fs w0 !! q)
  | Throw msg => destroy r t w0 = (Throw msg, w0)
  end.
Proof.
  destruct (files t) as [gen|msg] eqn:Hgen.
  2: { unfold Destroy.destroy, Destroy.tasks. by rewrite Hgen. }
  unfold Destroy.destroy. rewrite (tasks_of_files t gen Hgen).
  cbn [task_list run_tasks run title].
  rewrite delete_files_generated.
  2: { intros q [c Hc]. rewrite fs_report. simpl.
       exists c. by apply lookup_union_Some_l. }
  rewrite fs_report, unlinked_report. cbn [fs unlinked progress write_files].
  assert (Hframe : forall q, gen !! q = None ->
            ((gen ∪ fs w0) ∖ gen) !! q = fs w0 !! q).
  { intros q Hq. rewrite lookup_difference, Hq. by apply lookup_union_r. }
  unfold Destroy.edit_routes. rewrite fs_report, unlinked_report.
  cbn [fs unlinked progress].
  destruct (((gen ∪ fs w0) ∖ gen) !! routes_file) as [text|] eqn:Hroutes.
  - eexists _, _. split; [reflexivity|]. cbn [fs unlinked].
    split; [done|]. split; [apply NoDup_fst_map_to_list|].
    split; [apply elem_of_paths_of|]. split; [apply length_paths_of|].
    split.
    + rewrite dom_insert_lookup_L by (by rewrite Hroutes).
      by rewrite dom_difference_L.
    + intros q Hq Hne. rewrite lookup_insert_ne by done. by apply Hframe.
  - eexists _, _. split; [reflexivity|]. rewrite fs_report, unlinked_report.
    cbn [fs unlinked].
    split; [done|]. split; [apply NoDup_fst_map_to_list|].
    split; [apply elem_of_paths_of|]. split; [apply length_paths_of|].
    split; [by rewrite dom_difference_L|].
    intros q Hq _. by apply Hframe.
Qed.


Lemma tasks_second (t : Target) (tl : TaskList) :
  tasks t = Return tl ->
  task_list tl !! 1%nat
  = Some {| title := "Cleaning up routes file..."; run := edit_routes t |}.
Proof.
  intros H. destruct (tasks_valid t tl H) as [gen Hgen].
  rewrite (tasks_of_files t gen Hgen) in H. by injection H as <-.
Qed.

Lemma edit_routes_present (t : Target) (w : World) (text : string) :
  fs w !! routes_file = Some text ->
  edit_routes t w
  = (Done, {| fs := <[routes_file := remove_route_line t text]> (fs w);
              unlinked := unlinked w;
              progress := progress w |}).
Proof. intros H. unfold Destroy.edit_routes. by rewrite H. Qed.

(** C1.  On a route table with one line that matches the target, the
    route-edit task (the second task of the list) rewrites the table to
    the same lines without that one: one line fewer, and the lines that
    do not match byte for byte and in their order. *)
Theorem route_edit_removes_matching_line
    (t : Target) (tl : TaskList) (w : World) (text : string)
    (l1 l2 : list string) (x : string) :
  tasks t = Return tl ->
  fs w !! routes_file = Some text ->
  lines text = l1 ++ x :: l2 ->
  matches t x = true ->
  Forall (fun y => matches t y = false) (l1 ++ l2) ->
  exists task,
    task_list tl !! 1%nat = Some task
    /\ run task w
       = (Done, {| fs := <[routes_file := unlines (l1 ++ l2)]> (fs w);
                   unlinked := unlinked w;
                   progress := progress w |})
    /\ (length (l1 ++ l2) + 1 = length (lines text))%nat
    /\ filter (fun y => matches t y = false) (lines text) = l1 ++ l2
    /\ (l1 ++ l2 <> [] -> lines (unlines (l1 ++ l2)) = l1 ++ l2).
Proof.
  intros Htl Htext Hlines Hx Hothers.
  eexists. split; [by apply tasks_second|]. cbn [run].
  rewrite (edit_routes_present t w text Htext).
  unfold Destroy.remove_route_line. rewrite Hlines.
  rewrite remove_first_split; [|by apply Forall_app in Hothers as [? _] | done].
  split; [done|]. split; [rewrite !length_app; simpl; lia|].
  split; [by apply filter_false_split|].
  intros Hne. apply lines_unlines; [done|].
  pose proof (lines_no_LF text) as Hall. rewrite Hlines in Hall.
  apply Forall_app in Hall as [H1 H2]. apply Forall_cons in H2 as [_ H2].
  by apply Forall_app.
Qed.

(** C3.  On a route table without a matching line the route-edit task
    ends normally and leaves the project, and the text of the table, as
    they were; run on its own it contributes no error. *)
Theorem route_edit_no_match
    (t : Target) (tl : TaskList) (w : World) (text : string) :
  tasks t = Return tl ->
  fs w !! routes_file = Some text ->
  Forall (fun y => matches t y = false) (lines text) ->
  exists task,
    task_list tl !! 1%nat = Some task
    /\ run task w = (Done, w)
    /\ run_tasks Silent [task] w = ([], w)
    /\ remove_route_line t text = text.
Proof.
  intros Htl Htext Hnone.
  assert (Hsame : remove_route_line t text = text).
  { unfold Destroy.remove_route_line.
    by rewrite remove_first_none, unlines_lines. }
  assert (Hrun : edit_routes t w = (Done, w)).
  { rewrite (edit_routes_present t w text Htext), Hsame.
    rewrite insert_id by done. by destruct w. }
  eexists. split; [by apply tasks_second|]. cbn [run].
  split; [done|]. split; [|done].
  cbn [run_tasks run report title]. by rewrite Hrun.
Qed.

(** With a custom path the default path convention plays no part in
    what a line is matched against. *)
Lemma matches_custom_path (t : Target) (p : string) (d : string -> string)
    (line : string) :
  customPath t = Some p ->
  Destroy.matches route_name d t line
  = JS.includes (attribute "path" p) line
    || JS.includes (attribute "name" (route_name (name t))) line.
Proof. intros H. unfold Destroy.matches, target_path. by rewrite H. Qed.


End WithLayout.

(** *** The sample project *)

Abbreviation sample_matches := (Destroy.matches lower_first sample_default_path).

Ltac evaluated := vm_compute; reflexivity.
Ltac each_line := repeat (constructor; [evaluated|]); constructor.

(** C1, witness: the clean-up of the test-suite.  The route of "About"
    is the one matching line; the table written is the expected one. *)
Lemma route_edit_removes_matching_line_witness :
  sample_matches about route_about = true
  /\ exists task,
       task_list about_tasks !! 1%nat = Some task
       /\ (run task (project_with routes_before)).1 = Done
       /\ fs (run task (project_with routes_before)).2 !! sample_routes_file
          = Some routes_after.
Proof.
  split; [evaluated|].
  destruct (route_edit_removes_matching_line
              "/app/web/src" sample_routes_file sample_file_name
              sample_template lower_first sample_default_path
              about about_tasks (project_with routes_before) routes_before
              ["<Routes>"] [route_home; route_notfound; "</Routes>"]
              route_about)
    as (task & Htask & Hrun & _).
  - evaluated.
  - evaluated.
  - evaluated.
  - evaluated.
  - each_line.
  - exists task. split; [exact Htask|]. rewrite Hrun. split; [reflexivity|].
    cbn [snd fs]. apply lookup_insert_eq.
Defined.

(** C3, witness: once the route of "About" is gone, cleaning up again
    changes nothing. *)
Lemma route_edit_no_match_witness :
  exists task,
    task_list about_tasks !! 1%nat = Some task
    /\ run task (project_with routes_after) = (Done, project_with routes_after).
Proof.
  destruct (route_edit_no_match
              "/app/web/src" sample_routes_file sample_file_name
              sample_template lower_first sample_default_path
              about about_tasks (project_with routes_after) routes_after)
    as (task & Htask & Hrun & _).
  - evaluated.
  - evaluated.
  - each_line.
  - exists task. split; [exact Htask | exact Hrun].
Defined.


(** The test "cleans up route with a custom path": the table of the
    test-suite declares "About" under its default path, and the target
    with the custom path still finds the entry, by its name. *)
Example custom_path_target_cleans_up_by_name :
  Destroy.remove_route_line lower_first sample_default_path about_us routes_before
  = routes_after.
Proof. evaluated. Qed.



(** The example of the design document: "About" with stories and tests
    is four files, and destroying it unlinks the four and leaves the
    other routes. *)
Example destroy_about_full :
  size about_full_files = 4%nat
  /\ (let '(errs, w) :=
         sample_destroy Silent about_full
           (write_files about_full_files (project_with routes_before)) in
       (errs, length (unlinked w), map_to_list (fs w)))
     = (Return [], 4%nat, [(sample_routes_file, routes_after)]).
Proof. split; evaluated. Qed.

End DestroyProofs.

(** * Further properties *)

(** ** The generation entry point: what [run] prints and leaves *)

Module CodegenReport.
Import JS Codegen.

Lemma replace_unfold (pat rep s : string) :
  replace pat rep s
  = match strip_prefix pat s with
    | Some rest => rep +:+ rest
    | None =>
        match s with
        | EmptyString => EmptyString
        | String c s' => String c (replace pat rep s')
        end
    end.
Proof. destruct s; reflexivity. Qed.

Lemma strip_prefix_app (p s : string) : strip_prefix p (p +:+ s) = Some s.
Proof.
  induction p as [|a p IH]; simpl; [reflexivity|].
  by rewrite Ascii.eqb_refl.
Qed.

Lemma includes_unfold (pat s : string) :
  includes pat s
  = match strip_prefix pat s with
    | Some _ => true
    | None =>
        match s with
        | EmptyString => false
        | String _ s' => includes pat s'
        end
    end.
Proof. destruct s; reflexivity. Qed.

(** Replacing a pattern that does not occur changes nothing. *)
Lemma replace_absent (pat rep s : string) :
  includes pat s = false -> replace pat rep s = s.
Proof.
  induction s as [|c s IH]; rewrite includes_unfold, replace_unfold;
    destruct (strip_prefix pat _); try discriminate; try reflexivity.
  intros H. by rewrite (IH H).
Qed.

Lemma stderr_calls_app (a b : list Output) :
  stderr_calls (a ++ b) = (stderr_calls a + stderr_calls b)%nat.
Proof.
  induction a as [|[args|args] a IH]; simpl; [done | done | by rewrite IH].
Qed.

Lemma stderr_calls_print_error (errs : list GenError) :
  stderr_calls (flat_map print_error errs) = (2 * length errs)%nat.
Proof. induction errs as [|e errs IH]; simpl; [done | rewrite IH; lia]. Qed.

Section WithGenerators.

Context {Env : Type}.
Variable generateGraphQLSchema : Env -> SchemaResult * Env.
Variable generateTypeDefs : Env -> TypeDefsResult * Env.
Variable base : string.

Abbreviation generate := (generate generateGraphQLSchema generateTypeDefs).
Abbreviation run := (run generateGraphQLSchema generateTypeDefs base).
Abbreviation print_file := (print_file base).

Lemma stderr_calls_print_file (fs : list value) :
  stderr_calls (flat_map print_file fs) = 0%nat.
Proof.
  induction fs as [|f fs IH]; [done|].
  simpl. rewrite stderr_calls_app, IH. by destruct f.
Qed.

(** X1.  A file below the project base is printed relative to it: the
    leading [base + '/'] is cut off, whatever follows. *)
Theorem print_file_relative (rel : string) :
  print_file (VString ((base +:+ "/") +:+ rel))
  = [Log [VString "-"; VString rel]].
Proof.
  unfold Codegen.print_file.
  by rewrite replace_unfold, strip_prefix_app.
Qed.

(** X2.  A file whose path does not contain [base + '/'] is printed as
    it is. *)
Theorem print_file_outside_base (f : string) :
  includes (base +:+ "/") f = false ->
  print_file (VString f) = [Log [VString "-"; VString f]].
Proof.
  intros H. unfold Codegen.print_file. by rewrite (replace_absent _ _ _ H).
Qed.


(** X4.  [run] calls [console.error] twice for each collected error and
    not otherwise: without errors nothing goes to the error stream. *)
Theorem run_stderr_calls (p : Process) :
  stderr_calls (console (run p))
  = (stderr_calls (console p)
     + 2 * length (errors (generate (env p)).1))%nat.
Proof.
  unfold Codegen.run.
  destruct (generate (env p)) as [r env'] eqn:E. cbn [fst].
  destruct (errors r) as [|e errs] eqn:Ee; cbn [console].
  - rewrite !stderr_calls_app, stderr_calls_print_file. simpl. lia.
  - rewrite !stderr_calls_app, stderr_calls_print_file.
    rewrite (stderr_calls_print_error (e :: errs)). simpl. lia.
Qed.

(** X5.  [run] never changes an exit code that is already non-zero, and
    sets exactly 1 when errors were collected and the exit code was
    unset or zero. *)
Theorem run_exit_code_exact (p : Process) :
  (exit_status (exitCode p) <> 0 -> exitCode (run p) = exitCode p)
  /\ (exit_status (exitCode p) = 0 ->
      errors (generate (env p)).1 <> [] ->
      exitCode (run p) = Some 1).
Proof.
  unfold Codegen.run.
  destruct (generate (env p)) as [r env'] eqn:E. cbn [fst].
  destruct (errors r) as [|e errs]; cbn [exitCode]; split; try done.
  - destruct (exitCode p) as [n|]; simpl; [|done].
    intros Hn. by rewrite (proj2 (Z.eqb_neq n 0) Hn).
  - destruct (exitCode p) as [n|]; simpl; [|done]. by intros ->.
Qed.

End WithGenerators.

(** X2, witness: with base [/app], a file of another tree. *)
Lemma print_file_outside_base_witness :
  includes ("/app" +:+ "/") "/tmp/schema.graphql" = false
  /\ print_file "/app" (VString "/tmp/schema.graphql")
     = [Log [VString "-"; VString "/tmp/schema.graphql"]].
Proof.
  split; [reflexivity|].
  exact (print_file_outside_base "/app" "/tmp/schema.graphql" eq_refl).
Defined.

(** X5, witness: an exit code of 2 survives a failing run, and a fresh
    process ends a failing run with exit code 1. *)
Lemma run_exit_code_exact_witness :
  exitCode (run failing_schema clean_typeDefs "/app" (process_with_exit_code 2))
  = Some 2
  /\ exitCode (run failing_schema clean_typeDefs "/app" fresh_process) = Some 1.
Proof.
  split.
  - exact (proj1 (run_exit_code_exact failing_schema clean_typeDefs "/app"
                    (process_with_exit_code 2))
             ltac:(discriminate)).
  - exact (proj2 (run_exit_code_exact failing_schema clean_typeDefs "/app"
                    fresh_process)
             eq_refl ltac:(discriminate)).
Defined.

End CodegenReport.

(** ** The router's [Link]: the shape of what a click does *)

Module RouterLinkTrace.
Import JS RouterLink.

Lemma modified_dec (event : MouseEvent) : modified event \/ ~ modified event.
Proof.
  destruct (negb (button event =? 0)
            || altKey event || ctrlKey event || metaKey event || shiftKey event)
    eqn:E.
  - left. by apply RouterLinkProofs.modified_test.
  - right. intros H. apply RouterLinkProofs.modified_test in H. congruence.
Qed.

(** The traces the handler can leave. *)
Lemma handleClick_cases (to : string) (onClick : option Handler)
    (event : MouseEvent) :
  (modified event /\ handleClick to onClick event = [])
  \/ (~ modified event /\ onClick = None
      /\ handleClick to onClick event = [PreventDefault; Navigate to])
  \/ (~ modified event /\ is_Some onClick
      /\ handleClick to onClick event = [PreventDefault; CallOnClick])
  \/ (~ modified event /\ is_Some onClick
      /\ handleClick to onClick event
         = [PreventDefault; CallOnClick; Navigate to]).
Proof.
  destruct (modified_dec event) as [H|H].
  - left. split; [done|]. unfold handleClick.
    by rewrite (proj2 (RouterLinkProofs.modified_test event) H).
  - right. unfold handleClick.
    rewrite (RouterLinkProofs.modified_test_false event H).
    destruct onClick as [h|]; [|by left].
    right. destruct (negb _ || truthy (h event)); [right | left]; eauto.
Qed.

(** X6.  The [onClick] prop is called exactly for the clicks the link
    handles itself: with a modifier key or another button the user's
    handler is not called at all. *)
Theorem onClick_called_iff (to : string) (onClick : option Handler)
    (event : MouseEvent) :
  In CallOnClick (handleClick to onClick event)
  <-> ~ modified event /\ is_Some onClick.
Proof.
  destruct (handleClick_cases to onClick event)
    as [[Hm ->]|[(Hm & -> & ->)|[(Hm & Hs & ->)|(Hm & Hs & ->)]]]; simpl.
  - split; [tauto | intros [H _]; contradiction].
  - split.
    + intros [H|[H|H]]; try discriminate H; contradiction.
    + intros [_ H]. by apply is_Some_None in H.
  - split; [done | tauto].
  - split; [done | tauto].
Qed.

(** X7.  Wherever [navigate] shows up in what a click does, it is the
    last thing done, it goes to [to], and [preventDefault] came first
    with no other [navigate] before. *)
Theorem navigate_last_and_once (to to' : string) (onClick : option Handler)
    (event : MouseEvent) (before after : list Effect) :
  handleClick to onClick event = before ++ Navigate to' :: after ->
  to' = to /\ after = []
  /\ (exists rest, before = PreventDefault :: rest)
  /\ (forall t, ~ In (Navigate t) before).
Proof.
  destruct (handleClick_cases to onClick event)
    as [[Hm ->]|[(Hm & -> & ->)|[(Hm & Hs & ->)|(Hm & Hs & ->)]]]; intros H.
  all: destruct before as [|e1 [|e2 [|e3 [|e4 before]]]]; try discriminate H.
  all: injection H; intros; subst.
  all: repeat split; eauto.
  all: intros t Ht; simpl in Ht; intuition discriminate.
Qed.

(** X7, witness: a plain click on a link without handler. *)
Lemma navigate_last_and_once_witness :
  handleClick "/about" None plain_click = [PreventDefault] ++ [Navigate "/about"]
  /\ "/about" = "/about".
Proof.
  split; [reflexivity|].
  exact (proj1 (navigate_last_and_once "/about" "/about" None plain_click
                  [PreventDefault] [] eq_refl)).
Defined.

End RouterLinkTrace.

(** ** [resolveOptions]: when it throws, and what it returns *)

Module ServerOptionsResult.
Import ServerOptions.

Section WithHost.

Context {Logger Number : Type}.
Variable isNaN : Number -> bool.
Variable ToNumber : string -> Number.
Variable coerceRootPath : string -> string.
Variable getAPIHost : string.
Variable getAPIPort : Number.
Variable parseArgs : option (list string) -> Completion Values.
Variable DEFAULT_logger : Logger.

Abbreviation apply_args := (apply_args (Logger := Logger) isNaN ToNumber).
Abbreviation resolveOptions :=
  (resolveOptions isNaN ToNumber coerceRootPath getAPIHost getAPIPort
     parseArgs DEFAULT_logger).

Abbreviation bad_port := (bad_port isNaN ToNumber).

Lemma bad_port_dec (values : Values) : bad_port values \/ ~ bad_port values.
Proof.
  unfold ServerOptions.bad_port.
  destruct (v_port values) as [p|]; [|right; intros (p & H & _); done].
  destruct (decide (p = EmptyString)) as [->|Hne].
  { right. intros (q & [= <-] & Hq & _). done. }
  destruct (isNaN (ToNumber p)) eqn:E; [left; eauto|].
  right. intros (q & [= <-] & _ & Hq). congruence.
Qed.

(** The argument block returns unless the port is bad, and then each
    field is its argument when that is not empty. *)
Lemma apply_args_inv (values : Values) (r0 : ResolvedOptions) :
  (bad_port values /\ apply_args values r0 = Throw "`port` must be an integer")
  \/ (~ bad_port values
      /\ apply_args values r0
         = Return
             {| apiRootPath :=
                  match v_apiRootPath values with
                  | Some a => if truthy (Some a) then a else apiRootPath r0
                  | None => apiRootPath r0
                  end;
                fastifyServerOptions := fastifyServerOptions r0;
                host :=
                  match v_host values with
                  | Some h => if truthy (Some h) then h else host r0
                  | None => host r0
                  end;
                port :=
                  match v_port values with
                  | Some p => if truthy (Some p) then ToNumber p else port r0
                  | None => port r0
                  end |}).
Proof.
  destruct (bad_port_dec values) as [Hbad|Hok].
  - left. split; [done|]. destruct Hbad as (p & Hp & Hne & Hnan).
    by apply (ServerOptionsProofs.apply_args_throw isNaN ToNumber values r0 p).
  - right. split; [done|].
    apply ServerOptionsProofs.apply_args_return. intros p Hp Hne.
    destruct (isNaN (ToNumber p)) eqn:E; [|done].
    exfalso. apply Hok. by exists p.
Qed.

(** X8.  Unless [options.parseArgs] is [true], the arguments are not
    looked at: [resolveOptions] returns, with the host and port of
    [getAPIHost] and [getAPIPort] and the coerced [options.apiRootPath]
    ("/" by default), whatever [args] holds.  The default first
    parameter, an empty object, is such a case. *)
Theorem resolveOptions_parse_disabled
    (options : CreateServerOptions) (args : option (list string)) :
  o_parseArgs options <> Some true ->
  exists r,
    resolveOptions options args = Return r
    /\ host r = getAPIHost /\ port r = getAPIPort
    /\ apiRootPath r
       = coerceRootPath (default DEFAULT_apiRootPath (o_apiRootPath options)).
Proof.
  intros H. unfold ServerOptions.resolveOptions.
  destruct (o_parseArgs options) as [[|]|]; [done | eauto..].
Qed.

(** X9.  [resolveOptions] throws in two cases only, both with argument
    parsing enabled: [parseArgs] throws (its error is passed on), or a
    non-empty port argument is not a number.  The checks of [host] and
    [apiRootPath] never throw. *)
Theorem resolveOptions_throws_iff
    (options : CreateServerOptions) (args : option (list string))
    (msg : string) :
  resolveOptions options args = Throw msg
  <-> o_parseArgs options = Some true
      /\ (parseArgs args = Throw msg
          \/ exists values,
               parseArgs args = Return values /\ bad_port values
               /\ msg = "`port` must be an integer").
Proof.
  unfold ServerOptions.resolveOptions.
  destruct (o_parseArgs options) as [[|]|].
  2,3: split; [discriminate | intros [H _]; discriminate].
  destruct (parseArgs args) as [values|e].
  - match goal with
    | |- context [ServerOptions.apply_args _ _ _ ?r0] =>
        destruct (apply_args_inv values r0) as [[Hbad ->]|[Hok ->]]
    end.
    + split.
      * intros [= <-]. split; [done|]. right. by exists values.
      * intros (_ & [H|(v & [= <-] & _ & ->)]); [discriminate | done].
    + split; [discriminate|].
      intros (_ & [H|(v & [= <-] & Hbad & _)]); [discriminate | contradiction].
  - split.
    + intros [= <-]. split; [done | by left].
    + intros (_ & [[= ->]|(v & H & _)]); [done | discriminate].
Qed.

(** X10.  In whatever [resolveOptions] returns, the request timeout is
    set: the caller's when [options.fastifyServerOptions] has one, 15000
    otherwise; and the logger of the fastify options is [options.logger]
    (the default logger when unset), also when the caller's
    [fastifyServerOptions] came with a logger of its own. *)
Theorem resolveOptions_fastify_options
    (options : CreateServerOptions) (args : option (list string))
    (r : ResolvedOptions) :
  resolveOptions options args = Return r ->
  requestTimeout (fastifyServerOptions r)
  = Some (default DEFAULT_requestTimeout
            (o_fastifyServerOptions options ≫= requestTimeout))
  /\ fso_logger (fastifyServerOptions r)
     = Some (default DEFAULT_logger (o_logger options)).
Proof.
  unfold ServerOptions.resolveOptions.
  assert (Hfso : forall step : Completion ResolvedOptions,
    (forall r1, step = Return r1 ->
       fastifyServerOptions r1
       = {| requestTimeout :=
              Some (default DEFAULT_requestTimeout
                      (o_fastifyServerOptions options ≫= requestTimeout));
            fso_logger := Some (default DEFAULT_logger (o_logger options)) |}) ->
    match step with
    | Throw m => Throw m
    | Return r1 =>
        Return {| apiRootPath := coerceRootPath (apiRootPath r1);
                  fastifyServerOptions := fastifyServerOptions r1;
                  host := host r1; port := port r1 |}
    end = Return r ->
    requestTimeout (fastifyServerOptions r)
    = Some (default DEFAULT_requestTimeout
              (o_fastifyServerOptions options ≫= requestTimeout))
    /\ fso_logger (fastifyServerOptions r)
       = Some (default DEFAULT_logger (o_logger options))).
  { intros [r1|m] Hr1 [= <-]. cbn [fastifyServerOptions].
    by rewrite (Hr1 r1 eq_refl). }
  apply Hfso. intros r1.
  assert (Hdef :
    {| requestTimeout :=
         Some (default DEFAULT_requestTimeout
                 (requestTimeout
                    (default {| requestTimeout := Some DEFAULT_requestTimeout;
                                fso_logger :=
                                  Some (default DEFAULT_logger (o_logger options)) |}
                       (o_fastifyServerOptions options))));
       fso_logger := Some (default DEFAULT_logger (o_logger options)) |}
    = {| requestTimeout :=
           Some (default DEFAULT_requestTimeout
                   (o_fastifyServerOptions options ≫= requestTimeout));
         fso_logger := Some (default DEFAULT_logger (o_logger options)) |}).
  { by destruct (o_fastifyServerOptions options). }
  destruct (o_parseArgs options) as [[|]|].
  2,3: intros [= <-]; exact Hdef.
  destruct (parseArgs args) as [values|e]; [|discriminate].
  match goal with
  | |- context [ServerOptions.apply_args _ _ _ ?r0] =>
      destruct (apply_args_inv values r0) as [[_ ->]|[_ ->]]
  end; [discriminate|].
  intros [= <-]. exact Hdef.
Qed.

(** X11.  With argument parsing enabled, a non-empty [--host] argument
    is the resolved host and an absent or empty one leaves the host of
    [getAPIHost]; a non-empty [--apiRootPath] argument takes the place of
    [options.apiRootPath], and in every case the root path returned went
    through [coerceRootPath]. *)
Theorem resolveOptions_host_and_root
    (options : CreateServerOptions) (args : option (list string))
    (values : Values) (r : ResolvedOptions) :
  o_parseArgs options = Some true ->
  parseArgs args = Return values ->
  resolveOptions options args = Return r ->
  (forall h, v_host values = Some h -> h <> EmptyString -> host r = h)
  /\ (truthy (v_host values) = false -> host r = getAPIHost)
  /\ (forall a, v_apiRootPath values = Some a -> a <> EmptyString ->
      apiRootPath r = coerceRootPath a)
  /\ (truthy (v_apiRootPath values) = false ->
      apiRootPath r
      = coerceRootPath (default DEFAULT_apiRootPath (o_apiRootPath options))).
Proof.
  intros Hparse Hvalues. unfold ServerOptions.resolveOptions.
  rewrite Hparse, Hvalues.
  match goal with
  | |- context [ServerOptions.apply_args _ _ _ ?r0] =>
      destruct (apply_args_inv values r0) as [[_ ->]|[_ ->]]
  end; [discriminate|].
  intros [= <-]. cbn [host apiRootPath]. repeat split.
  - intros h Hh Hne. rewrite Hh. cbv beta iota.
    by destruct (String.eqb_spec h EmptyString).
  - intros H. destruct (v_host values); [simpl in H; by rewrite H | done].
  - intros a Ha Hne. rewrite Ha. cbv beta iota.
    by destruct (String.eqb_spec a EmptyString).
  - intros H. destruct (v_apiRootPath values); [simpl in H; by rewrite H | done].
Qed.

End WithHost.

(** X8, witness: with the default (empty) options a [--port] argument
    is ignored. *)
Lemma resolveOptions_parse_disabled_witness :
  exists r,
    sample_resolveOptions empty_options (Some ["--port"; "1"]) = Return r
    /\ port r = Some 8911.
Proof.
  destruct (resolveOptions_parse_disabled sample_isNaN sample_ToNumber
              sample_coerceRootPath "::" (Some 8911) sample_parseArgs tt
              empty_options (Some ["--port"; "1"]) ltac:(discriminate))
    as (r & Hr & _ & Hport & _).
  exists r. split; [exact Hr | exact Hport].
Defined.

(** X10, witness: a caller's fastify options without timeout get the
    default one. *)
Lemma resolveOptions_fastify_options_witness :
  exists r,
    sample_resolveOptions bare_fastify_options None = Return r
    /\ requestTimeout (fastifyServerOptions r) = Some 15000.
Proof.
  destruct (sample_resolveOptions bare_fastify_options None) as [r|m] eqn:E;
    [|discriminate E].
  exists r. split; [reflexivity|].
  exact (proj1 (resolveOptions_fastify_options sample_isNaN sample_ToNumber
                  sample_coerceRootPath "::" (Some 8911) sample_parseArgs tt
                  bare_fastify_options None r E)).
Defined.

(** X11, witness: [--host] and [--apiRootPath] on the command line. *)
Lemma resolveOptions_host_and_root_witness :
  exists r,
    sample_resolveOptions parse_enabled
      (Some ["--host"; "localhost"; "--apiRootPath"; "api"]) = Return r
    /\ host r = "localhost"
    /\ apiRootPath r = sample_coerceRootPath "api".
Proof.
  eexists. split; [reflexivity|].
  pose proof (resolveOptions_host_and_root sample_isNaN sample_ToNumber
                sample_coerceRootPath "::" (Some 8911) sample_parseArgs tt
                parse_enabled
                (Some ["--host"; "localhost"; "--apiRootPath"; "api"])
                {| v_host := Some "localhost"; v_port := None;
                   v_apiRootPath := Some "api" |}
                _ eq_refl eq_refl eq_refl) as (Hh & _ & Ha & _).
  split.
  - exact (Hh "localhost" eq_refl ltac:(discriminate)).
  - exact (Ha "api" eq_refl ltac:(discriminate)).
Defined.

End ServerOptionsResult.

(** ** The Apollo provider: links and client options *)

Module ApolloProviderProofs.
Import JS ApolloProvider.

Section WithApollo.

Variable createTokenLink : value -> value.
Variable createAuthApolloLink : value -> value -> value.
Variable createUpdateDataLink : value.
Variable createHttpLink : value -> value -> value -> value.
Variable createFinalLink : value -> list RedwoodApolloLink -> value.
Variable restoredCache : value -> value.
Variable uri : value.
Variable headers : value.
Variable getToken : value.
Variable authProviderType : value.
Variable serverAuthState : option (gmap string value).
Variable isDev : bool.
Variable has_window : bool.
Variable RWJS_EXP_SSR_GRAPHQL_ENDPOINT : value.

Abbreviation redwoodApolloLinks :=
  (redwoodApolloLinks createTokenLink createAuthApolloLink
     createUpdateDataLink createHttpLink uri headers getToken
     authProviderType serverAuthState isDev has_window
     RWJS_EXP_SSR_GRAPHQL_ENDPOINT).
Abbreviation provider_client :=
  (provider_client createTokenLink createAuthApolloLink
     createUpdateDataLink createHttpLink createFinalLink restoredCache uri
     headers getToken authProviderType serverAuthState isDev has_window
     RWJS_EXP_SSR_GRAPHQL_ENDPOINT).

(** X12.  Redwood's links come in a fixed order: the token link, the
    auth middleware, the error-enhancing link in development only, and
    the HTTP link last; no name occurs twice. *)
Theorem redwoodApolloLinks_order (httpLinkConfig : value) :
  let names := map name (redwoodApolloLinks httpLinkConfig) in
  last names = Some "httpLink"
  /\ names !! 0%nat = Some "withToken"
  /\ names !! 1%nat = Some "authMiddleware"
  /\ ("enhanceErrorLink" ∈ names <-> isDev = true)
  /\ length names = (if isDev then 4 else 3)%nat
  /\ NoDup names.
Proof.
  unfold ApolloProvider.redwoodApolloLinks, link_candidates.
  destruct isDev; cbn.
  - repeat split; try done; [set_solver|].
    apply (bool_decide_unpack _). by vm_compute.
  - repeat split; try done.
    + intros H. apply (bool_decide_unpack _) in H || idtac.
      repeat (apply elem_of_cons in H as [H|H]; [discriminate H|]).
      by apply elem_of_nil in H.
    + apply (bool_decide_unpack _). by vm_compute.
Qed.

(** What [{ cache, ...config }] holds under a key other than the two
    the provider handles. *)
Lemma provider_config_lookup (c : gmap string value) (v : value) (k : string) :
  k <> "cacheConfig" -> k <> "cache" ->
  (delete "cacheConfig" c ∪ {[ "cache" := v ]}) !! k = c !! k.
Proof.
  intros H1 H2.
  rewrite lookup_union, lookup_delete_ne, lookup_singleton_ne by done.
  by destruct (c !! k).
Qed.

(** X13.  Of the user's configuration, [link] and [httpLinkConfig] are
    consumed on the way and [cacheConfig] before: the client's [link] is
    always what [createFinalLink] makes of the user's link and Redwood's
    links, [httpLinkConfig] and [cacheConfig] do not reach the client,
    and every other property but [cache] reaches it unchanged. *)
Theorem provider_client_options (g : option (gmap string value)) :
  provider_client g !! "link"
  = Some (createFinalLink (get (or_empty g) "link")
            (redwoodApolloLinks (get (or_empty g) "httpLinkConfig")))
  /\ provider_client g !! "httpLinkConfig" = None
  /\ provider_client g !! "cacheConfig" = None
  /\ (forall k, k <> "link" -> k <> "httpLinkConfig" -> k <> "cacheConfig" ->
      k <> "cache" -> provider_client g !! k = or_empty g !! k).
Proof.
  unfold ApolloProvider.provider_client, makeClient, provider_config, get.
  cbn [or_empty default from_option]. unfold id. set (c := or_empty g).
  repeat split.
  - rewrite lookup_union_r by (by rewrite lookup_delete_ne, lookup_delete_eq).
    rewrite lookup_singleton_eq.
    by rewrite !provider_config_lookup.
  - by rewrite lookup_union, lookup_delete_eq, lookup_singleton_ne.
  - rewrite lookup_union, !lookup_delete_ne, lookup_singleton_ne by done.
    by rewrite lookup_union, lookup_delete_eq, lookup_singleton_ne.
  - intros k H1 H2 H3 H4.
    rewrite lookup_union, !lookup_delete_ne, (lookup_singleton_ne "link")
      by done.
    rewrite provider_config_lookup by done.
    by destruct (c !! k).
Qed.

(** X14.  The cache the client gets is the user's whenever the
    configuration has a [cache] property, whatever its value; the cache
    restored from [cacheConfig] is used only when there is none. *)
Theorem provider_client_cache (g : option (gmap string value)) :
  provider_client g !! "cache"
  = Some (default (restoredCache (get (or_empty g) "cacheConfig"))
            (or_empty g !! "cache")).
Proof.
  unfold ApolloProvider.provider_client, makeClient, provider_config, get.
  cbn [or_empty default from_option]. unfold id. set (c := or_empty g).
  rewrite lookup_union, !lookup_delete_ne, (lookup_singleton_ne "link")
    by done.
  rewrite lookup_union, lookup_delete_ne, lookup_singleton_eq by done.
  by destruct (c !! "cache").
Qed.

End WithApollo.

End ApolloProviderProofs.
